(** * PubMed batch fetcher: token-aware batching

    A shallow embedding of [pubmed_llm_fetcher.py] (class [PubMedFetcher])
    and the properties of its batching engine.

    Conventions of the embedding:
    - a Python [int] is a [Z]; [len(...)] is [Z.of_nat (length ...)];
    - a Python [str] is a [string] whose characters are code points below
      256, so [str.split()] uses the whitespace code points of that range;
    - the attributes of the [PubMedFetcher] object are the fields of the
      record [PubMedFetcher]; every method takes the object and returns the
      updated object (explicit state passing);
    - [self.tokenizer] is the field [tokenizer], the [encode] function of
      the tiktoken encoding; nothing is assumed about it;
    - a missing dictionary key ([KeyError]) and a division by zero
      ([ZeroDivisionError]) are [None] in an [option];
    - the calls of [_save_batch] are recorded, in order, with their
      arguments; [_save_batch] gives the file each of them writes;
    - [_log], [print] of progress lines and [time.sleep] have no influence
      on the values computed and are left out; [print_summary] and
      [save_summary] return the lines they emit. *)

From Stdlib Require Import ZArith List String Ascii Bool Lia.
From Stdlib Require Import Numbers.DecimalString.
From Stdlib Require DecimalPos DecimalZ.
Import ListNotations.

Open Scope string_scope.
Open Scope list_scope.
Open Scope Z_scope.

(** String concatenation, Python's [+] on [str]. *)
Infix "+++" := String.append (right associativity, at level 60).

(** ** Python strings *)

(** [str.isspace] on one character, for code points below 256:
    TAB..CR, FS..US, SPACE, NEL and NBSP. *)
Definition isspace (c : ascii) : bool :=
  let n := N_of_ascii c in
  (((9 <=? n) && (n <=? 13)) || ((28 <=? n) && (n <=? 32))
   || (n =? 133) || (n =? 160))%N.

Definition is_empty (s : string) : bool :=
  match s with EmptyString => true | String _ _ => false end.

(** [text.split()]: the maximal runs of non-whitespace characters.
    [cur] is the word being read. *)
Fixpoint split_from (cur : string) (text : string) : list string :=
  match text with
  | EmptyString => if is_empty cur then [] else [cur]
  | String c rest =>
      if isspace c
      then (if is_empty cur then split_from "" rest
            else cur :: split_from "" rest)
      else split_from (cur +++ String c "") rest
  end.

Definition split (text : string) : list string := split_from "" text.

(** [sep.join(parts)] *)
Fixpoint join (sep : string) (parts : list string) : string :=
  match parts with
  | [] => ""
  | [p] => p
  | p :: ps => p +++ sep +++ join sep ps
  end.

(** [s * n] for a string [s] *)
Fixpoint str_repeat (s : string) (n : nat) : string :=
  match n with
  | O => ""
  | S k => s +++ str_repeat s k
  end.

(** [str(n)] for an integer *)
Definition str_of_int (n : Z) : string :=
  NilZero.string_of_int (Z.to_int n).

(** [needle in text] *)
Fixpoint contains (needle text : string) : bool :=
  String.prefix needle text
  || match text with
     | EmptyString => false
     | String _ rest => contains needle rest
     end.

(** ** Data model *)

(** An article dictionary. [fetch_articles] creates it with the keys
    ['pmid'], ['title'] and ['abstract']; [process_and_batch_articles]
    adds (or overwrites) ['word_count'] and ['token_count']. *)
Record article := mk_article {
  pmid : string;
  title : string;
  abstract : string;
  word_count : option Z;
  token_count : option Z
}.

(** One entry of [self.batches]. *)
Record batch_info := mk_batch_info {
  bi_batch_number : Z;
  bi_article_count : Z;
  bi_token_count : Z
}.

(** One call [_save_batch(batch, batch_number, token_count)]. *)
Record saved_batch := mk_saved_batch {
  sb_batch : list article;
  sb_batch_number : Z;
  sb_token_count : Z
}.

(** The attributes of the object. *)
Record PubMedFetcher := mk_fetcher {
  query : string;
  years : Z;
  max_results : Z;
  token_limit : Z;
  output_dir : string;
  review_only : bool;
  tokenizer : string -> list Z;
  total_articles : Z;
  total_words : Z;
  total_tokens : Z;
  skipped_articles : Z;
  batches : list batch_info
}.

(** [__init__]: the statistics start at zero, [self.batches] empty. *)
Definition init (query : string) (years max_results token_limit : Z)
    (output_dir : string) (review_only : bool)
    (tokenizer : string -> list Z) : PubMedFetcher :=
  {| query := query; years := years; max_results := max_results;
     token_limit := token_limit; output_dir := output_dir;
     review_only := review_only; tokenizer := tokenizer;
     total_articles := 0; total_words := 0; total_tokens := 0;
     skipped_articles := 0; batches := [] |}.

(** ** Cost function *)

Definition count_tokens (self : PubMedFetcher) (text : string) : Z :=
  Z.of_nat (List.length (tokenizer self text)).

Definition count_words (text : string) : Z :=
  Z.of_nat (List.length (split text)).

(** [f"{article['title']} {article['abstract']}"] *)
Definition combined_text (a : article) : string :=
  title a +++ " " +++ abstract a.

(** ** Batch packer *)

(** The state of the loop of [process_and_batch_articles]: the object, the
    three local variables and the calls of [_save_batch] made so far. *)
Record loop_state := mk_loop {
  self : PubMedFetcher;
  current_batch : list article;
  current_batch_tokens : Z;
  batch_number : Z;
  saved : list saved_batch
}.

Definition add_totals (s : PubMedFetcher) (w t : Z) : PubMedFetcher :=
  {| query := query s; years := years s; max_results := max_results s;
     token_limit := token_limit s; output_dir := output_dir s;
     review_only := review_only s; tokenizer := tokenizer s;
     total_articles := total_articles s;
     total_words := total_words s + w;
     total_tokens := total_tokens s + t;
     skipped_articles := skipped_articles s;
     batches := batches s |}.

Definition append_batch (s : PubMedFetcher) (b : batch_info) : PubMedFetcher :=
  {| query := query s; years := years s; max_results := max_results s;
     token_limit := token_limit s; output_dir := output_dir s;
     review_only := review_only s; tokenizer := tokenizer s;
     total_articles := total_articles s;
     total_words := total_words s;
     total_tokens := total_tokens s;
     skipped_articles := skipped_articles s;
     batches := batches s ++ [b] |}.

Definition set_total_articles (s : PubMedFetcher) (n : Z) : PubMedFetcher :=
  {| query := query s; years := years s; max_results := max_results s;
     token_limit := token_limit s; output_dir := output_dir s;
     review_only := review_only s; tokenizer := tokenizer s;
     total_articles := n;
     total_words := total_words s;
     total_tokens := total_tokens s;
     skipped_articles := skipped_articles s;
     batches := batches s |}.

(** The article after [article['word_count'] = ...] and
    [article['token_count'] = ...]. *)
Definition annotate (s : PubMedFetcher) (a : article) : article :=
  {| pmid := pmid a; title := title a; abstract := abstract a;
     word_count := Some (count_words (combined_text a));
     token_count := Some (count_tokens s (combined_text a)) |}.

(** Closing a batch: the call of [_save_batch] and the entry appended to
    [self.batches]. *)
Definition close_batch (s : PubMedFetcher) (sv : list saved_batch)
    (batch : list article) (number tokens : Z)
    : PubMedFetcher * list saved_batch :=
  (append_batch s
     {| bi_batch_number := number;
        bi_article_count := Z.of_nat (List.length batch);
        bi_token_count := tokens |},
   sv ++ [ {| sb_batch := batch; sb_batch_number := number;
              sb_token_count := tokens |} ]).

(** A list is true in a condition when it is not empty. *)
Definition nonempty {A} (l : list A) : bool :=
  match l with [] => false | _ :: _ => true end.

(** One iteration of the loop. *)
Definition loop_body (ls : loop_state) (a : article) : loop_state :=
  let word_count := count_words (combined_text a) in
  let token_count := count_tokens (self ls) (combined_text a) in
  let s := add_totals (self ls) word_count token_count in
  let a' := annotate (self ls) a in
  if (current_batch_tokens ls + token_count >? token_limit s)
     && nonempty (current_batch ls)
  then
    let (s', sv') := close_batch s (saved ls) (current_batch ls)
                       (batch_number ls) (current_batch_tokens ls) in
    {| self := s'; current_batch := [a'];
       current_batch_tokens := token_count;
       batch_number := batch_number ls + 1; saved := sv' |}
  else
    {| self := s; current_batch := current_batch ls ++ [a'];
       current_batch_tokens := current_batch_tokens ls + token_count;
       batch_number := batch_number ls; saved := saved ls |}.

Definition loop_start (s : PubMedFetcher) : loop_state :=
  {| self := s; current_batch := []; current_batch_tokens := 0;
     batch_number := 1; saved := [] |}.

(** After the loop: the final batch, then [self.total_articles]. *)
Definition loop_finish (ls : loop_state) (n_articles : nat)
    : PubMedFetcher * list saved_batch :=
  let (s, sv) :=
    if nonempty (current_batch ls)
    then close_batch (self ls) (saved ls) (current_batch ls)
           (batch_number ls) (current_batch_tokens ls)
    else (self ls, saved ls) in
  (set_total_articles s (Z.of_nat n_articles), sv).

(** [process_and_batch_articles]: the object afterwards and the batches
    saved. The list [articles] itself holds [map (annotate self) articles]
    afterwards, its dictionaries being updated in place. *)
Definition process_and_batch_articles (s : PubMedFetcher)
    (articles : list article) : PubMedFetcher * list saved_batch :=
  loop_finish (fold_left loop_body articles (loop_start s))
    (List.length articles).

(** [_save_batch]: the name (inside [self.output_dir]) and the text of the
    file written for one batch. *)
Definition batch_file_name (number : Z) : string :=
  "pubmed_batch_" +++ str_of_int number +++ ".txt".

Definition nl : string := String (ascii_of_nat 10) "".

Fixpoint batch_file_text (batch : list article) : string :=
  match batch with
  | [] => ""
  | a :: rest =>
      "PMID: " +++ pmid a +++ nl +++ nl +++
      "TITLE: " +++ title a +++ nl +++ nl +++
      "ABSTRACT:" +++ nl +++ abstract a +++ nl +++ nl +++
      str_repeat "-" 40 +++ nl +++ nl +++
      batch_file_text rest
  end.

Definition _save_batch (b : saved_batch) : string * string :=
  (batch_file_name (sb_batch_number b), batch_file_text (sb_batch b)).

(** ** Item source and quality filter *)

(** The parsed XML of a PubMed record, as far as [fetch_articles] reads
    it. A key that may be missing is an [option]. ['AbstractText'] is a
    list of parts or a single string. *)
Inductive abstract_text :=
| Parts (parts : list string)
| Single (text : string).

Record abstract_data := mk_abstract_data {
  AbstractText : option abstract_text
}.

Record medline_article := mk_medline_article {
  ArticleTitle : option string;
  Abstract : option abstract_data
}.

Record medline_citation := mk_medline_citation {
  PMID : option string;
  Article : option medline_article
}.

Record pubmed_article := mk_pubmed_article {
  MedlineCitation : option medline_citation
}.

(** The three ways out of the [try] block for one record. *)
Inductive extraction :=
| Extracted (a : article)
| NoAbstract
| MissingData.

Definition extract (article_record : pubmed_article) : extraction :=
  match MedlineCitation article_record with
  | None => MissingData
  | Some citation =>
    match PMID citation with
    | None => MissingData
    | Some pmid =>
      match Article citation with
      | None => MissingData
      | Some art =>
        match ArticleTitle art with
        | None => MissingData
        | Some title =>
          match Abstract art with
          | Some abstract_data =>
            match AbstractText abstract_data with
            | Some (Parts abstract_parts) =>
                Extracted {| pmid := pmid; title := title;
                             abstract := join " " abstract_parts;
                             word_count := None; token_count := None |}
            | Some (Single abstract_parts) =>
                Extracted {| pmid := pmid; title := title;
                             abstract := abstract_parts;
                             word_count := None; token_count := None |}
            | None => NoAbstract
            end
          | None => NoAbstract
          end
        end
      end
    end
  end.

Definition skip_one (s : PubMedFetcher) : PubMedFetcher :=
  {| query := query s; years := years s; max_results := max_results s;
     token_limit := token_limit s; output_dir := output_dir s;
     review_only := review_only s; tokenizer := tokenizer s;
     total_articles := total_articles s;
     total_words := total_words s;
     total_tokens := total_tokens s;
     skipped_articles := skipped_articles s + 1;
     batches := batches s |}.

(** The body of the loop over [records['PubmedArticle']]. *)
Definition fetch_record (st : PubMedFetcher * list article)
    (article_record : pubmed_article) : PubMedFetcher * list article :=
  match extract article_record with
  | Extracted a => (fst st, snd st ++ [a])
  | NoAbstract => (skip_one (fst st), snd st)
  | MissingData => (skip_one (fst st), snd st)
  end.

(** [range(0, n, step)] *)
Definition range_step (n step : nat) : list nat :=
  map (fun k => (k * step)%nat) (seq 0 ((n + step - 1) / step)).

Definition batch_size : nat := 50.

(** [pmid_list[i:i + batch_size]] *)
Definition slice (pmid_list : list string) (i : nat) : list string :=
  firstn batch_size (skipn i pmid_list).

Section Fetch.

(** [Entrez.efetch] followed by [Entrez.read] and the lookup of
    ['PubmedArticle'], on the joined identifiers; [None] when any of
    them raises. *)
Variable efetch : string -> option (list pubmed_article).

(** One iteration of the loop over the chunks of identifiers. *)
Definition fetch_chunk (pmid_list : list string)
    (st : PubMedFetcher * list article) (i : nat)
    : PubMedFetcher * list article :=
  match efetch (join "," (slice pmid_list i)) with
  | Some records => fold_left fetch_record records st
  | None => st
  end.

Definition fetch_articles (s : PubMedFetcher) (pmid_list : list string)
    : PubMedFetcher * list article :=
  fold_left (fetch_chunk pmid_list)
    (range_step (List.length pmid_list) batch_size) (s, []).

(** The records the chunk starting at [i] delivers. *)
Definition delivered (pmid_list : list string) (i : nat)
    : list pubmed_article :=
  match efetch (join "," (slice pmid_list i)) with
  | Some records => records
  | None => []
  end.

(** The records the source delivered, in order. *)
Definition fetched_records (pmid_list : list string)
    : list pubmed_article :=
  flat_map (delivered pmid_list)
    (range_step (List.length pmid_list) batch_size).

End Fetch.

(** The records that pass the filter, and whether one is rejected. *)
Definition kept (records : list pubmed_article) : list article :=
  flat_map (fun r => match extract r with
                     | Extracted a => [a]
                     | _ => []
                     end) records.

Definition rejected (r : pubmed_article) : bool :=
  match extract r with Extracted _ => false | _ => true end.

(** The record has an ['Abstract'] with an ['AbstractText'] key. *)
Definition has_abstract_field (r : pubmed_article) : bool :=
  match MedlineCitation r with
  | Some citation =>
    match Article citation with
    | Some art =>
      match Abstract art with
      | Some abstract_data =>
        match AbstractText abstract_data with
        | Some _ => true
        | None => false
        end
      | None => false
      end
    | None => false
    end
  | None => false
  end.

(** The record has a ['PMID'] and an ['ArticleTitle']. *)
Definition has_pmid_and_title (r : pubmed_article) : bool :=
  match MedlineCitation r with
  | Some citation =>
    match PMID citation, Article citation with
    | Some _, Some art =>
      match ArticleTitle art with
      | Some _ => true
      | None => false
      end
    | _, _ => false
    end
  | None => false
  end.

(** What [fetch_articles] leaves of the object: only the skip counter may
    differ. *)
Definition same_but_skipped (s s' : PubMedFetcher) : Prop :=
  token_limit s' = token_limit s /\ tokenizer s' = tokenizer s
  /\ total_articles s' = total_articles s /\ total_words s' = total_words s
  /\ total_tokens s' = total_tokens s /\ batches s' = batches s.

(** ** Summary *)

(** [a // b] *)
Definition floordiv (a b : Z) : option Z :=
  if b =? 0 then None else Some (a / b).

(** The digits of [f"{n:,}"], a comma before every group of three. *)
Fixpoint group_digits (digits : string) : string :=
  match digits with
  | EmptyString => ""
  | String c rest =>
      String c
        (if (0 <? String.length rest)%nat
            && (String.length rest mod 3 =? 0)%nat
         then "," +++ group_digits rest
         else group_digits rest)
  end.

(** [f"{n:,}"] *)
Definition str_of_int_commas (n : Z) : string :=
  if n <? 0 then "-" +++ group_digits (str_of_int (- n))
  else group_digits (str_of_int n).

Definition str_of_bool (b : bool) : string :=
  if b then "True" else "False".

(** The lines guarded by [if self.total_articles > 0] in [save_summary]. *)
Definition summary_averages (s : PubMedFetcher) : option (list string) :=
  if total_articles s >? 0 then
    match floordiv (total_words s) (total_articles s),
          floordiv (total_tokens s) (total_articles s) with
    | Some w, Some t =>
        Some [ "Average words per article: " +++ str_of_int w +++ nl;
               "Average tokens per article: " +++ str_of_int t +++ nl +++ nl ]
    | _, _ => None
    end
  else Some [].

Definition summary_batch_line (b : batch_info) : string :=
  "Batch " +++ str_of_int (bi_batch_number b) +++ ": "
  +++ str_of_int (bi_article_count b) +++ " articles, "
  +++ str_of_int_commas (bi_token_count b) +++ " tokens" +++ nl.

(** The strings written to [summary.txt], one per call of [f.write], given
    those of the guarded block; [now] is the formatted [datetime.now()]. *)
Definition summary_text (now : string) (s : PubMedFetcher)
    (averages : list string) : list string :=
  [ str_repeat "=" 60 +++ nl;
    "PUBMED FETCH SUMMARY" +++ nl;
    str_repeat "=" 60 +++ nl +++ nl;
    "Search Query: " +++ query s +++ nl;
    "Review Articles Only: " +++ str_of_bool (review_only s) +++ nl;
    "Date Range: Last " +++ str_of_int (years s) +++ " year(s)" +++ nl;
    "Fetch Date: " +++ now +++ nl +++ nl;
    str_repeat "-" 60 +++ nl;
    "FETCH STATISTICS" +++ nl;
    str_repeat "-" 60 +++ nl;
    "Total articles fetched: " +++ str_of_int (total_articles s) +++ nl;
    "Articles skipped (no abstract): "
      +++ str_of_int (skipped_articles s) +++ nl;
    "Total batches created: "
      +++ str_of_int (Z.of_nat (List.length (batches s))) +++ nl +++ nl;
    str_repeat "-" 60 +++ nl;
    "TOKEN & WORD METRICS" +++ nl;
    str_repeat "-" 60 +++ nl;
    "Total words: " +++ str_of_int_commas (total_words s) +++ nl;
    "Total tokens: " +++ str_of_int_commas (total_tokens s) +++ nl ]
  ++ averages
  ++ [ str_repeat "-" 60 +++ nl;
       "BATCH DISTRIBUTION" +++ nl;
       str_repeat "-" 60 +++ nl ]
  ++ map summary_batch_line (batches s)
  ++ [ nl +++ str_repeat "-" 60 +++ nl;
       "OUTPUT FILES" +++ nl;
       str_repeat "-" 60 +++ nl;
       "Output directory: " +++ output_dir s +++ nl ]
  ++ map (fun i => "  - " +++ batch_file_name (Z.of_nat i) +++ nl)
       (seq 1 (List.length (batches s)))
  ++ [ "  - summary.txt" +++ nl;
       "  - fetch_log.txt" +++ nl ].

(** [save_summary]; [None] when the division raises. *)
Definition save_summary (now : string) (s : PubMedFetcher)
    : option (list string) :=
  match summary_averages s with
  | None => None
  | Some averages => Some (summary_text now s averages)
  end.

(** The line guarded by [if self.total_articles > 0] in [print_summary]. *)
Definition printed_average (s : PubMedFetcher) : option (list string) :=
  if total_articles s >? 0 then
    match floordiv (total_tokens s) (total_articles s) with
    | Some t => Some [ "Avg tokens/article: " +++ str_of_int t ]
    | None => None
    end
  else Some [].

(** The strings printed, one per call of [print], given that of the
    guarded line. *)
Definition printed_text (s : PubMedFetcher) (average : list string)
    : list string :=
  [ nl +++ str_repeat "=" 60;
    "FINAL SUMMARY";
    str_repeat "=" 60;
    "Query: " +++ query s;
    "Review only: " +++ str_of_bool (review_only s);
    "Total articles: " +++ str_of_int (total_articles s);
    "Skipped: " +++ str_of_int (skipped_articles s);
    "Total batches: " +++ str_of_int (Z.of_nat (List.length (batches s)));
    "Total words: " +++ str_of_int_commas (total_words s);
    "Total tokens: " +++ str_of_int_commas (total_tokens s) ]
  ++ average
  ++ [ nl +++ "Output directory: " +++ output_dir s;
       str_repeat "=" 60 ].

(** [print_summary]; [None] when the division raises. *)
Definition print_summary (s : PubMedFetcher) : option (list string) :=
  match printed_average s with
  | None => None
  | Some average => Some (printed_text s average)
  end.

(** A string of the summary that speaks of an average: the two labels the
    program uses, or a value given as not applicable. *)
Definition mentions_average (line : string) : bool :=
  contains "Average" line || contains "Avg" line
  || contains "average" line || contains "not applicable" line
  || contains "N/A" line.

(** ** Main execution flow *)

Definition dq : string := String (ascii_of_nat 34) "".

Definition search_query (s : PubMedFetcher) : string :=
  if review_only s
  then query s +++ " AND " +++ dq +++ "review" +++ dq +++ "[Publication Type]"
  else query s.

(** What [run] leaves behind: the object, the batch files, and the summary
    written and printed when the run gets that far. *)
Record run_result := mk_run_result {
  rr_self : PubMedFetcher;
  rr_saved : list saved_batch;
  rr_summary : option (list string);
  rr_printed : option (list string)
}.

Section Run.

(** [Entrez.esearch] and the reading of its ['IdList'] and ['Count'];
    [None] when any of them raises. *)
Variable esearch : string -> option (list string).
Variable efetch : string -> option (list pubmed_article).
Variable now : string.

Definition search_pubmed (s : PubMedFetcher) : list string :=
  match esearch (search_query s) with
  | Some pmid_list => pmid_list
  | None => []
  end.

(** [run]; [None] when an exception escapes. *)
Definition run (s : PubMedFetcher) : option run_result :=
  let pmid_list := search_pubmed s in
  if negb (nonempty pmid_list) then
    Some {| rr_self := s; rr_saved := [];
            rr_summary := None; rr_printed := None |}
  else
    let (s1, articles) := fetch_articles efetch s pmid_list in
    if negb (nonempty articles) then
      Some {| rr_self := s1; rr_saved := [];
              rr_summary := None; rr_printed := None |}
    else
      let (s2, sv) := process_and_batch_articles s1 articles in
      match save_summary now s2 with
      | None => None
      | Some written =>
          match print_summary s2 with
          | None => None
          | Some printed =>
              Some {| rr_self := s2; rr_saved := sv;
                      rr_summary := Some written;
                      rr_printed := Some printed |}
          end
      end.

End Run.

(** ** Vocabulary of the statements *)

(** The identity of a record: the keys [fetch_articles] gave it. *)
Definition identity (a : article) : string * string * string :=
  (pmid a, title a, abstract a).

(** The cost of a record: the token count of its combined text. *)
Definition cost (s : PubMedFetcher) (a : article) : Z :=
  count_tokens s (combined_text a).

Definition words (a : article) : Z := count_words (combined_text a).

Definition zsum (l : list Z) : Z := fold_right Z.add 0 l.

(** [sum(r['token_count'] for r in records)]; [None] when a record has no
    ['token_count'] key. *)
Fixpoint sum_token_counts (records : list article) : option Z :=
  match records with
  | [] => Some 0
  | r :: rest =>
      match token_count r, sum_token_counts rest with
      | Some t, Some n => Some (t + n)
      | _, _ => None
      end
  end.

Fixpoint sum_word_counts (records : list article) : option Z :=
  match records with
  | [] => Some 0
  | r :: rest =>
      match word_count r, sum_word_counts rest with
      | Some t, Some n => Some (t + n)
      | _, _ => None
      end
  end.

(** The entry of [self.batches] that goes with a saved batch. *)
Definition info_of (b : saved_batch) : batch_info :=
  {| bi_batch_number := sb_batch_number b;
     bi_article_count := Z.of_nat (List.length (sb_batch b));
     bi_token_count := sb_token_count b |}.

(** The batch numbers [1, 2, ..., n]. *)
Definition numbers_from_1 (n : nat) : list Z := map Z.of_nat (seq 1 n).

(** Where the batches are cut: number, size and cost of each. *)
Definition boundary (b : saved_batch) : Z * nat * Z :=
  (sb_batch_number b, List.length (sb_batch b), sb_token_count b).

(** A record that carries the counts the packer stored in it. *)
Definition costed (s : PubMedFetcher) (r : article) : Prop :=
  token_count r = Some (cost s r) /\ word_count r = Some (words r).

(** What holds of a batch of records with accumulated cost [tokens], open
    or closed, under the capacity of [s]. *)
Record batch_ok (s : PubMedFetcher) (records : list article) (tokens : Z)
  : Prop := {
  ok_costed : Forall (costed s) records;
  ok_tokens : tokens = zsum (map (cost s) records);
  ok_capacity : (1 < List.length records)%nat -> tokens <= token_limit s;
  ok_oversized :
    forall r, In r records -> cost s r > token_limit s -> records = [r]
}.

Definition saved_ok (s : PubMedFetcher) (b : saved_batch) : Prop :=
  sb_batch b <> [] /\ batch_ok s (sb_batch b) (sb_token_count b).

(** The attributes the packer reads are those of the object it started
    from. *)
Definition same_config (s s' : PubMedFetcher) : Prop :=
  token_limit s' = token_limit s /\ tokenizer s' = tokenizer s /\
  query s' = query s /\ years s' = years s /\
  max_results s' = max_results s /\ output_dir s' = output_dir s /\
  review_only s' = review_only s /\
  skipped_articles s' = skipped_articles s.

(** The loop invariant: [ls] is reached from [loop_start s] after the
    records [done]. *)
Record loop_inv (s : PubMedFetcher) (done : list article) (ls : loop_state)
  : Prop := {
  inv_config : same_config s (self ls);
  inv_articles : total_articles (self ls) = total_articles s;
  inv_concat :
    List.concat (map sb_batch (saved ls)) ++ current_batch ls
    = map (annotate s) done;
  inv_saved : Forall (saved_ok s) (saved ls);
  inv_numbers :
    map sb_batch_number (saved ls) = numbers_from_1 (List.length (saved ls));
  inv_number : batch_number ls = Z.of_nat (List.length (saved ls)) + 1;
  inv_batches : batches (self ls) = batches s ++ map info_of (saved ls);
  inv_open : batch_ok s (current_batch ls) (current_batch_tokens ls);
  inv_total_tokens :
    total_tokens (self ls) = total_tokens s + zsum (map (cost s) done);
  inv_total_words :
    total_words (self ls) = total_words s + zsum (map words done)
}.

(** What [process_and_batch_articles] leaves: the object [s'] and the
    saved batches [sv]. *)
Record processed (s : PubMedFetcher) (articles : list article)
    (s' : PubMedFetcher) (sv : list saved_batch) : Prop := {
  p_config : same_config s s';
  p_concat : List.concat (map sb_batch sv) = map (annotate s) articles;
  p_saved : Forall (saved_ok s) sv;
  p_numbers : map sb_batch_number sv = numbers_from_1 (List.length sv);
  p_batches : batches s' = batches s ++ map info_of sv;
  p_total_tokens :
    total_tokens s' = total_tokens s + zsum (map (cost s) articles);
  p_total_words :
    total_words s' = total_words s + zsum (map words articles);
  p_total_articles : total_articles s' = Z.of_nat (List.length articles)
}.

(** Two loop states that agree on everything the packer decides with. *)
Record agree (s1 s2 : PubMedFetcher) (ls1 ls2 : loop_state) : Prop := {
  ag_tokenizer1 : tokenizer (self ls1) = tokenizer s1;
  ag_tokenizer2 : tokenizer (self ls2) = tokenizer s2;
  ag_limit1 : token_limit (self ls1) = token_limit s1;
  ag_limit2 : token_limit (self ls2) = token_limit s2;
  ag_saved : map boundary (saved ls1) = map boundary (saved ls2);
  ag_open :
    List.length (current_batch ls1) = List.length (current_batch ls2);
  ag_tokens : current_batch_tokens ls1 = current_batch_tokens ls2;
  ag_number : batch_number ls1 = batch_number ls2
}.

(** ** A small run, for the examples *)

(** A tokenizer with one token per character. *)
Definition char_tokenizer (text : string) : list Z :=
  map (fun c => Z.of_N (N_of_ascii c)) (list_ascii_of_string text).

(** A fresh object with capacity 5. *)
Definition demo_fetcher : PubMedFetcher :=
  init "crispr" 5 100 5 "./pubmed_output" false char_tokenizer.

Definition fetched (pmid title abstract : string) : article :=
  {| pmid := pmid; title := title; abstract := abstract;
     word_count := None; token_count := None |}.

(** Records of cost 3, 4, 1, 9 and 1. *)
Definition demo_articles : list article :=
  [ fetched "101" "a" "b"; fetched "102" "ab" "c"; fetched "103" "" "";
    fetched "104" "abcdefg" "h"; fetched "105" "" "" ].

(** The open batch after the record of cost 4; the next record costs 1. *)
Definition demo_tie_state : loop_state :=
  fold_left loop_body [fetched "102" "ab" "c"] (loop_start demo_fetcher).

(** A parsed record with every key, and its variants. *)
Definition full_record (pmid title : string) (text : abstract_text)
    : pubmed_article :=
  {| MedlineCitation :=
       Some {| PMID := Some pmid;
               Article :=
                 Some {| ArticleTitle := Some title;
                         Abstract := Some {| AbstractText := Some text |} |}
            |} |}.

Definition record_without_abstract (pmid title : string) : pubmed_article :=
  {| MedlineCitation :=
       Some {| PMID := Some pmid;
               Article :=
                 Some {| ArticleTitle := Some title; Abstract := None |} |}
  |}.

Definition record_without_title (pmid : string) : pubmed_article :=
  {| MedlineCitation :=
       Some {| PMID := Some pmid;
               Article :=
                 Some {| ArticleTitle := None;
                         Abstract :=
                           Some {| AbstractText := Some (Single "x") |} |}
            |} |}.

(** Five records delivered, two of them without body text. *)
Definition demo_records : list pubmed_article :=
  [ full_record "101" "a" (Single "b");
    record_without_abstract "102" "ab";
    full_record "103" "cd" (Parts ["e"; "f"]);
    record_without_title "104";
    full_record "105" "" (Parts []) ].

Definition demo_pmids : list string := ["101"; "102"; "103"; "104"; "105"].

Definition demo_efetch (ids : string) : option (list pubmed_article) :=
  if String.eqb ids "101,102,103,104,105" then Some demo_records else None.

(** A record whose abstract element is present and holds no text. *)
Definition blank_record : pubmed_article :=
  full_record "201" "A title" (Parts [""]).

Definition blank_efetch (ids : string) : option (list pubmed_article) :=
  Some [blank_record].

(** The object after processing no record at all. *)
Definition idle_fetcher : PubMedFetcher :=
  fst (process_and_batch_articles demo_fetcher []).

Definition demo_now : string := "2024-05-01 12:00:00".

(** * Properties *)

(** ** Sums and costs *)

Lemma zsum_app (l l' : list Z) : zsum (l ++ l') = zsum l + zsum l'.
Proof.
  induction l as [|x l IH]; simpl; [reflexivity|].
  rewrite IH. lia.
Qed.

Lemma cost_nonneg (s : PubMedFetcher) (a : article) : 0 <= cost s a.
Proof. unfold cost, count_tokens. lia. Qed.

Lemma zsum_cost_nonneg (s : PubMedFetcher) (l : list article) :
  0 <= zsum (map (cost s) l).
Proof.
  induction l as [|a l IH]; simpl; [lia|].
  pose proof (cost_nonneg s a). lia.
Qed.

Lemma cost_annotate (s s' : PubMedFetcher) (a : article) :
  cost s (annotate s' a) = cost s a.
Proof. reflexivity. Qed.

Lemma words_annotate (s : PubMedFetcher) (a : article) :
  words (annotate s a) = words a.
Proof. reflexivity. Qed.

Lemma costed_annotate (s : PubMedFetcher) (a : article) :
  costed s (annotate s a).
Proof. split; reflexivity. Qed.

Lemma cost_same_tokenizer (s s' : PubMedFetcher) (a : article) :
  tokenizer s' = tokenizer s -> cost s' a = cost s a.
Proof. intros H. unfold cost, count_tokens. now rewrite H. Qed.

Lemma sum_token_counts_costed (s : PubMedFetcher) (l : list article) :
  Forall (costed s) l -> sum_token_counts l = Some (zsum (map (cost s) l)).
Proof.
  induction 1 as [|r l [Ht _] _ IH]; simpl; [reflexivity|].
  now rewrite Ht, IH.
Qed.

Lemma sum_word_counts_costed (s : PubMedFetcher) (l : list article) :
  Forall (costed s) l -> sum_word_counts l = Some (zsum (map words l)).
Proof.
  induction 1 as [|r l [_ Hw] _ IH]; simpl; [reflexivity|].
  now rewrite Hw, IH.
Qed.

Lemma nonempty_true {A} (l : list A) : nonempty l = true <-> l <> [].
Proof. destruct l; simpl; split; congruence. Qed.

Lemma nonempty_false {A} (l : list A) : nonempty l = false <-> l = [].
Proof. destruct l; simpl; split; congruence. Qed.

Lemma numbers_from_1_snoc (n : nat) :
  numbers_from_1 (S n) = numbers_from_1 n ++ [Z.of_nat n + 1].
Proof.
  unfold numbers_from_1. rewrite seq_S, map_app. simpl.
  do 2 f_equal. lia.
Qed.

(** ** The open batch *)

Lemma batch_ok_nil (s : PubMedFetcher) : batch_ok s [] 0.
Proof.
  constructor; simpl.
  - constructor.
  - reflexivity.
  - lia.
  - intros r [].
Qed.

(** A batch opened with one record. *)
Lemma batch_ok_single (s : PubMedFetcher) (a : article) :
  batch_ok s [annotate s a] (cost s a).
Proof.
  constructor; simpl.
  - repeat constructor.
  - rewrite cost_annotate. lia.
  - lia.
  - intros r [<-|[]] _. reflexivity.
Qed.

(** A record appended to a batch where it fits. *)
Lemma batch_ok_snoc (s : PubMedFetcher) (records : list article)
    (tokens : Z) (a : article) :
  batch_ok s records tokens ->
  tokens + cost s a <= token_limit s ->
  batch_ok s (records ++ [annotate s a]) (tokens + cost s a).
Proof.
  intros [Hc Ht Hcap Hbig] Hfit.
  pose proof (cost_nonneg s a) as Ha.
  pose proof (zsum_cost_nonneg s records) as Hs.
  constructor.
  - apply Forall_app. split; [assumption|]. repeat constructor.
  - rewrite map_app, zsum_app, Ht. simpl. rewrite cost_annotate. lia.
  - intros _. assumption.
  - intros r Hin Hr. exfalso.
    apply in_app_or in Hin as [Hin|[<-|[]]].
    + specialize (Hbig r Hin Hr). subst records. simpl in Ht. lia.
    + rewrite cost_annotate in Hr. lia.
Qed.

(** ** The loop invariant *)

Lemma loop_inv_start (s : PubMedFetcher) : loop_inv s [] (loop_start s).
Proof.
  constructor; simpl.
  - repeat split.
  - reflexivity.
  - reflexivity.
  - constructor.
  - reflexivity.
  - reflexivity.
  - now rewrite app_nil_r.
  - apply batch_ok_nil.
  - lia.
  - lia.
Qed.

Lemma loop_inv_step (s : PubMedFetcher) (done : list article)
    (ls : loop_state) (a : article) :
  loop_inv s done ls -> loop_inv s (done ++ [a]) (loop_body ls a).
Proof.
  intros [Hcfg Hart Hcat Hsv Hnums Hnum Hb Hopen Htt Htw].
  pose proof Hcfg as (Hlim & Htok & Hq & Hy & Hm & Ho & Hr & Hsk).
  assert (Hcost : count_tokens (self ls) (combined_text a) = cost s a)
    by (unfold cost, count_tokens; now rewrite Htok).
  assert (Hann : annotate (self ls) a = annotate s a)
    by (unfold annotate; now rewrite Hcost).
  unfold loop_body. rewrite Hcost, Hann.
  change (token_limit (add_totals (self ls) (count_words (combined_text a))
                         (cost s a)))
    with (token_limit (self ls)).
  rewrite Hlim.
  destruct ((current_batch_tokens ls + cost s a >? token_limit s)
            && nonempty (current_batch ls)) eqn:E.
  - apply andb_prop in E as [_ Hne]. apply nonempty_true in Hne.
    constructor; simpl.
    + repeat split; assumption.
    + assumption.
    + rewrite !map_app, concat_app. simpl.
      rewrite app_nil_r, <- Hcat. reflexivity.
    + apply Forall_app. split; [assumption|].
      constructor; [|constructor]. split; assumption.
    + rewrite map_app, length_app, Nat.add_comm. simpl.
      rewrite numbers_from_1_snoc, Hnums, Hnum. reflexivity.
    + rewrite length_app. simpl. lia.
    + rewrite Hb, map_app, <- app_assoc. reflexivity.
    + apply batch_ok_single.
    + rewrite Htt, map_app, zsum_app. simpl. lia.
    + rewrite Htw, map_app, zsum_app. simpl. unfold words. lia.
  - constructor; simpl.
    + repeat split; assumption.
    + assumption.
    + rewrite map_app, app_assoc, Hcat. reflexivity.
    + assumption.
    + assumption.
    + assumption.
    + assumption.
    + apply andb_false_iff in E as [E|E].
      * apply batch_ok_snoc; [assumption|lia].
      * apply nonempty_false in E. rewrite E in *.
        rewrite (ok_tokens _ _ _ Hopen). simpl.
        apply batch_ok_single.
    + rewrite Htt, map_app, zsum_app. simpl. lia.
    + rewrite Htw, map_app, zsum_app. simpl. unfold words. lia.
Qed.

Lemma loop_inv_fold (s : PubMedFetcher) (articles done : list article)
    (ls : loop_state) :
  loop_inv s done ls ->
  loop_inv s (done ++ articles) (fold_left loop_body articles ls).
Proof.
  revert done ls.
  induction articles as [|a articles IH]; intros done ls H; simpl.
  - now rewrite app_nil_r.
  - replace (done ++ a :: articles) with ((done ++ [a]) ++ articles)
      by (rewrite <- app_assoc; reflexivity).
    apply IH, loop_inv_step, H.
Qed.

Lemma process_spec (s : PubMedFetcher) (articles : list article) :
  processed s articles
    (fst (process_and_batch_articles s articles))
    (snd (process_and_batch_articles s articles)).
Proof.
  unfold process_and_batch_articles, loop_finish.
  pose proof (loop_inv_fold s articles [] _ (loop_inv_start s)) as H.
  simpl in H.
  destruct H as [Hcfg Hart Hcat Hsv Hnums Hnum Hb Hopen Htt Htw].
  destruct (nonempty (current_batch (fold_left loop_body articles
                                       (loop_start s)))) eqn:E; simpl.
  - apply nonempty_true in E.
    constructor; simpl; try assumption.
    + rewrite map_app, concat_app. simpl. now rewrite app_nil_r.
    + apply Forall_app. split; [assumption|].
      constructor; [|constructor]. split; assumption.
    + rewrite map_app, length_app, Nat.add_comm. simpl.
      rewrite numbers_from_1_snoc, Hnums, Hnum. reflexivity.
    + rewrite Hb, map_app, <- app_assoc. reflexivity.
    + reflexivity.
  - apply nonempty_false in E. rewrite E, app_nil_r in Hcat.
    constructor; simpl; try assumption. reflexivity.
Qed.

(** ** The batches of a run *)

Example demo_boundaries :
  map boundary (snd (process_and_batch_articles demo_fetcher demo_articles))
  = [ (1, 1%nat, 3); (2, 2%nat, 5); (3, 1%nat, 9); (4, 1%nat, 1) ].
Proof. vm_compute. reflexivity. Qed.

(** Costs 100, 150 and 50 under capacity 200, with fifty tokens per
    character: the first record alone, then the other two at exactly 200. *)
Example demo_costs_100_150_50 :
  let s := init "q" 5 100 200 "./out" false
             (fun text => repeat 0 (50 * String.length text)) in
  map boundary
    (snd (process_and_batch_articles s
            [fetched "1" "" "a"; fetched "2" "" "ab"; fetched "3" "" ""]))
  = [ (1, 1%nat, 100); (2, 2%nat, 200) ].
Proof. vm_compute. reflexivity. Qed.

Lemma saved_ok_in (s : PubMedFetcher) (articles : list article)
    (b : saved_batch) :
  In b (snd (process_and_batch_articles s articles)) -> saved_ok s b.
Proof.
  intros Hin.
  pose proof (p_saved _ _ _ _ (process_spec s articles)) as H.
  rewrite Forall_forall in H. apply H, Hin.
Qed.

(** C1. Capacity invariant: the recorded cost of an emitted batch is the
    sum of the token counts of its records; a batch with more than one
    record costs at most [token_limit]; a batch that costs more than
    [token_limit] holds exactly one record, whose own token count exceeds
    [token_limit]. *)
Theorem capacity_invariant (s : PubMedFetcher) (articles : list article)
    (b : saved_batch) :
  In b (snd (process_and_batch_articles s articles)) ->
  sum_token_counts (sb_batch b) = Some (sb_token_count b)
  /\ ((1 < List.length (sb_batch b))%nat -> sb_token_count b <= token_limit s)
  /\ (token_limit s < sb_token_count b ->
      exists r t, sb_batch b = [r] /\ token_count r = Some t
                  /\ t = sb_token_count b /\ token_limit s < t).
Proof.
  intros Hin.
  destruct (saved_ok_in s articles b Hin) as [Hne [Hc Ht Hcap Hbig]].
  split; [|split].
  - rewrite Ht. apply sum_token_counts_costed, Hc.
  - exact Hcap.
  - intros Hover.
    destruct (sb_batch b) as [|r [|r' rest]] eqn:E.
    + congruence.
    + exists r, (cost s r).
      inversion Hc as [|? ? [Hr _] _]; subst.
      simpl in Ht. repeat split; [assumption|lia|lia].
    + exfalso. simpl in Hcap. lia.
Qed.

Lemma capacity_invariant_witness :
  let b := {| sb_batch := [annotate demo_fetcher (fetched "104" "abcdefg" "h")];
              sb_batch_number := 3; sb_token_count := 9 |} in
  In b (snd (process_and_batch_articles demo_fetcher demo_articles))
  /\ sum_token_counts (sb_batch b) = Some 9
  /\ token_limit demo_fetcher < sb_token_count b.
Proof.
  intros b.
  assert (Hin : In b (snd (process_and_batch_articles demo_fetcher
                             demo_articles)))
    by (vm_compute; right; right; left; reflexivity).
  split; [exact Hin|].
  split; [|vm_compute; reflexivity].
  exact (proj1 (capacity_invariant demo_fetcher demo_articles b Hin)).
Defined.

Lemma identity_annotate (s : PubMedFetcher) (articles : list article) :
  map identity (map (annotate s) articles) = map identity articles.
Proof. rewrite map_map. apply map_ext. reflexivity. Qed.

Lemma annotate_costed (s : PubMedFetcher) (articles : list article) :
  Forall (costed s) articles -> map (annotate s) articles = articles.
Proof.
  induction 1 as [|a l [Ht Hw] _ IH]; simpl; [reflexivity|].
  rewrite IH. f_equal.
  destruct a as [p t ab w tc]. unfold annotate. simpl in *.
  unfold cost, words in *. simpl in *. now rewrite Ht, Hw.
Qed.

(** C2. Completeness and order preservation: for every capacity (positive
    or not), the records of the emitted batches, concatenated in batch
    order, are the input records in their order, each carrying the two
    counts the packer stored in it; so they have the identities of the
    input, and are the input itself when it already carried its counts. *)
Theorem order_preserved (s : PubMedFetcher) (articles : list article) :
  List.concat (map sb_batch (snd (process_and_batch_articles s articles)))
  = map (annotate s) articles
  /\ map identity
       (List.concat
          (map sb_batch (snd (process_and_batch_articles s articles))))
     = map identity articles
  /\ (Forall (costed s) articles ->
      List.concat
        (map sb_batch (snd (process_and_batch_articles s articles)))
      = articles).
Proof.
  pose proof (p_concat _ _ _ _ (process_spec s articles)) as H.
  rewrite H. split; [reflexivity|]. split.
  - apply identity_annotate.
  - apply annotate_costed.
Qed.

Example demo_order :
  map pmid
    (List.concat
       (map sb_batch
          (snd (process_and_batch_articles demo_fetcher demo_articles))))
  = ["101"; "102"; "103"; "104"; "105"].
Proof. vm_compute. reflexivity. Qed.

(** ** Oversized records *)

Lemma in_saved_batches (s : PubMedFetcher) (articles : list article)
    (r : article) :
  In r (map (annotate s) articles) <->
  exists b, In b (snd (process_and_batch_articles s articles))
            /\ In r (sb_batch b).
Proof.
  rewrite <- (p_concat _ _ _ _ (process_spec s articles)), in_concat.
  split.
  - intros (l & Hl & Hr). apply in_map_iff in Hl as (b & <- & Hb).
    exists b. split; assumption.
  - intros (b & Hb & Hr). exists (sb_batch b). split; [|assumption].
    apply in_map, Hb.
Qed.

Lemma singletons_of_concat {A} (ls : list (list A)) :
  Forall (fun l => exists x, l = [x]) ls ->
  ls = map (fun x => [x]) (List.concat ls).
Proof.
  induction 1 as [|l ls [x ->] _ IH]; simpl; [reflexivity|].
  now rewrite <- IH.
Qed.

(** C3. Oversized records: an input record whose token count exceeds
    [token_limit] is emitted in a batch that holds it alone and costs its
    token count; no emitted batch holds such a record together with another;
    and when every input record is oversized the batches are the input
    records one by one, numbered from 1. *)
Theorem oversized_alone (s : PubMedFetcher) (articles : list article) :
  (forall a, In a articles -> token_limit s < cost s a ->
     exists b, In b (snd (process_and_batch_articles s articles))
               /\ sb_batch b = [annotate s a]
               /\ sb_token_count b = cost s a)
  /\ (forall b r t,
        In b (snd (process_and_batch_articles s articles)) ->
        In r (sb_batch b) -> token_count r = Some t -> token_limit s < t ->
        sb_batch b = [r])
  /\ ((forall a, In a articles -> token_limit s < cost s a) ->
      map sb_batch (snd (process_and_batch_articles s articles))
      = map (fun a => [annotate s a]) articles
      /\ map sb_batch_number (snd (process_and_batch_articles s articles))
         = numbers_from_1 (List.length articles)).
Proof.
  split; [|split].
  - intros a Ha Hbig.
    assert (Hin : In (annotate s a) (map (annotate s) articles))
      by (apply in_map, Ha).
    apply in_saved_batches in Hin as (b & Hb & Hr).
    destruct (saved_ok_in s articles b Hb) as [_ [_ Ht _ Hover]].
    exists b. split; [assumption|].
    assert (E : sb_batch b = [annotate s a])
      by (apply Hover; [assumption | rewrite cost_annotate; lia]).
    split; [assumption|].
    rewrite Ht, E. simpl. rewrite cost_annotate. lia.
  - intros b r t Hb Hr Ht Hbig.
    destruct (saved_ok_in s articles b Hb) as [_ [Hc _ _ Hover]].
    apply Hover; [assumption|].
    rewrite Forall_forall in Hc. destruct (Hc r Hr) as [Hcost _].
    rewrite Hcost in Ht. injection Ht as <-. lia.
  - intros Hall.
    assert (Hsingle : Forall (fun l => exists x, l = [x])
              (map sb_batch (snd (process_and_batch_articles s articles)))).
    { apply Forall_forall. intros l Hl.
      apply in_map_iff in Hl as (b & <- & Hb).
      destruct (saved_ok_in s articles b Hb) as [Hne [_ _ _ Hover]].
      destruct (sb_batch b) as [|r rest] eqn:E; [congruence|].
      exists r. apply Hover; [left; reflexivity|].
      assert (Hr : In r (map (annotate s) articles)).
      { apply in_saved_batches. exists b. split; [assumption|].
        rewrite E. left. reflexivity. }
      apply in_map_iff in Hr as (a & <- & Ha).
      rewrite cost_annotate. specialize (Hall a Ha). lia. }
    apply singletons_of_concat in Hsingle.
    rewrite (p_concat _ _ _ _ (process_spec s articles)), map_map in Hsingle.
    split; [assumption|].
    rewrite (p_numbers _ _ _ _ (process_spec s articles)). f_equal.
    rewrite <- (length_map sb_batch), Hsingle. apply length_map.
Qed.

(** One record costing more than the capacity is saved alone. *)
Example demo_oversized :
  map boundary
    (snd (process_and_batch_articles demo_fetcher
            [fetched "104" "abcdefg" "h"]))
  = [ (1, 1%nat, 9) ].
Proof. vm_compute. reflexivity. Qed.

(** ** Ties *)

(** C4. Tie rule: when the cost of the open batch plus the token count of
    the next record is exactly [token_limit], the iteration appends the
    record to the open batch, whose cost becomes [token_limit]; nothing is
    saved and the batch number does not change. *)
Theorem tie_is_kept (ls : loop_state) (a : article) :
  current_batch_tokens ls + count_tokens (self ls) (combined_text a)
  = token_limit (self ls) ->
  current_batch (loop_body ls a)
  = current_batch ls ++ [annotate (self ls) a]
  /\ current_batch_tokens (loop_body ls a) = token_limit (self ls)
  /\ batch_number (loop_body ls a) = batch_number ls
  /\ saved (loop_body ls a) = saved ls
  /\ batches (self (loop_body ls a)) = batches (self ls).
Proof.
  intros Htie. unfold loop_body.
  change (token_limit (add_totals (self ls) (count_words (combined_text a))
                         (count_tokens (self ls) (combined_text a))))
    with (token_limit (self ls)).
  replace (current_batch_tokens ls
           + count_tokens (self ls) (combined_text a) >? token_limit (self ls))
    with false by (symmetry; rewrite Z.gtb_ltb; apply Z.ltb_ge; lia).
  simpl. repeat split. assumption.
Qed.

Lemma tie_is_kept_witness :
  current_batch_tokens demo_tie_state
  + count_tokens (self demo_tie_state) (combined_text (fetched "103" "" ""))
  = token_limit (self demo_tie_state)
  /\ List.length (current_batch (loop_body demo_tie_state
                                   (fetched "103" "" ""))) = 2%nat
  /\ saved (loop_body demo_tie_state (fetched "103" "" "")) = [].
Proof.
  assert (H : current_batch_tokens demo_tie_state
              + count_tokens (self demo_tie_state)
                  (combined_text (fetched "103" "" ""))
              = token_limit (self demo_tie_state))
    by (vm_compute; reflexivity).
  split; [exact H|].
  destruct (tie_is_kept demo_tie_state (fetched "103" "" "") H)
    as (Hb & _ & _ & Hs & _).
  split.
  - rewrite Hb. reflexivity.
  - rewrite Hs. reflexivity.
Defined.

(** ** Determinism *)

Lemma nonempty_length {A B} (l : list A) (l' : list B) :
  List.length l = List.length l' -> nonempty l = nonempty l'.
Proof. destruct l, l'; simpl; congruence. Qed.

Lemma agree_step (s1 s2 : PubMedFetcher) (ls1 ls2 : loop_state)
    (a1 a2 : article) :
  token_limit s1 = token_limit s2 ->
  cost s1 a1 = cost s2 a2 ->
  agree s1 s2 ls1 ls2 ->
  agree s1 s2 (loop_body ls1 a1) (loop_body ls2 a2).
Proof.
  intros Hlim Hcost [Hk1 Hk2 Hl1 Hl2 Hsv Hop Htk Hnb].
  assert (H1 : count_tokens (self ls1) (combined_text a1) = cost s1 a1)
    by (unfold cost, count_tokens; now rewrite Hk1).
  assert (H2 : count_tokens (self ls2) (combined_text a2) = cost s1 a1)
    by (rewrite Hcost; unfold cost, count_tokens; now rewrite Hk2).
  unfold loop_body. rewrite H1, H2.
  change (token_limit (add_totals (self ls1) (count_words (combined_text a1))
                         (cost s1 a1)))
    with (token_limit (self ls1)).
  change (token_limit (add_totals (self ls2) (count_words (combined_text a2))
                         (cost s1 a1)))
    with (token_limit (self ls2)).
  rewrite Hl1, Hl2, <- Hlim, <- Htk, (nonempty_length _ _ Hop).
  destruct ((current_batch_tokens ls1 + cost s1 a1 >? token_limit s1)
            && nonempty (current_batch ls2)); constructor; simpl;
    try assumption; try reflexivity.
  - rewrite !map_app, Hsv. simpl. unfold boundary at 2 4. simpl.
    now rewrite Hop, Hnb.
  - now rewrite Hnb.
  - rewrite !length_app. simpl. now rewrite Hop.
Qed.

Lemma agree_fold (s1 s2 : PubMedFetcher) (arts1 arts2 : list article) :
  token_limit s1 = token_limit s2 ->
  map (cost s1) arts1 = map (cost s2) arts2 ->
  forall ls1 ls2,
    agree s1 s2 ls1 ls2 ->
    agree s1 s2 (fold_left loop_body arts1 ls1)
      (fold_left loop_body arts2 ls2).
Proof.
  intros Hlim. revert arts2.
  induction arts1 as [|a1 arts1 IH]; intros [|a2 arts2] Hmap ls1 ls2 H;
    simpl in *; try discriminate; [assumption|].
  injection Hmap as Hc Hmap.
  apply IH; [assumption|]. apply agree_step; assumption.
Qed.

(** C5. Determinism: the batch boundaries (number, size and cost of every
    batch, in order) and the entries added to [self.batches] depend only on
    the capacity and on the sequence of token counts; two runs with the same
    capacity over records of the same costs cut the same batches, whatever
    else the two objects hold. *)
Theorem packing_deterministic (s1 s2 : PubMedFetcher)
    (arts1 arts2 : list article) :
  token_limit s1 = token_limit s2 ->
  map (cost s1) arts1 = map (cost s2) arts2 ->
  map boundary (snd (process_and_batch_articles s1 arts1))
  = map boundary (snd (process_and_batch_articles s2 arts2))
  /\ map info_of (snd (process_and_batch_articles s1 arts1))
     = map info_of (snd (process_and_batch_articles s2 arts2)).
Proof.
  intros Hlim Hmap.
  assert (Hb : map boundary (snd (process_and_batch_articles s1 arts1))
               = map boundary (snd (process_and_batch_articles s2 arts2))).
  { assert (H0 : agree s1 s2 (loop_start s1) (loop_start s2))
      by (constructor; reflexivity).
    destruct (agree_fold s1 s2 arts1 arts2 Hlim Hmap _ _ H0)
      as [_ _ _ _ Hsv Hop Htk Hnb].
    unfold process_and_batch_articles, loop_finish.
    rewrite (nonempty_length _ _ Hop).
    destruct (nonempty (current_batch (fold_left loop_body arts2
                                         (loop_start s2)))); simpl.
    - rewrite !map_app, Hsv. simpl. unfold boundary at 2 4. simpl.
      now rewrite Hop, Htk, Hnb.
    - assumption. }
  split; [assumption|].
  assert (Hinfo : forall l,
             map info_of l
             = map (fun t => {| bi_batch_number := fst (fst t);
                                bi_article_count := Z.of_nat (snd (fst t));
                                bi_token_count := snd t |})
                 (map boundary l))
    by (intros l; rewrite map_map; reflexivity).
  now rewrite !Hinfo, Hb.
Qed.

(** The second of two runs on one object: the object and the records are
    those the first run left. *)
Lemma packing_deterministic_witness :
  let s2 := fst (process_and_batch_articles demo_fetcher demo_articles) in
  let arts2 := map (annotate demo_fetcher) demo_articles in
  token_limit demo_fetcher = token_limit s2
  /\ map (cost demo_fetcher) demo_articles = map (cost s2) arts2
  /\ map boundary (snd (process_and_batch_articles demo_fetcher
                          demo_articles))
     = map boundary (snd (process_and_batch_articles s2 arts2)).
Proof.
  intros s2 arts2.
  assert (H1 : token_limit demo_fetcher = token_limit s2)
    by (vm_compute; reflexivity).
  assert (H2 : map (cost demo_fetcher) demo_articles = map (cost s2) arts2)
    by (vm_compute; reflexivity).
  split; [exact H1|]. split; [exact H2|].
  exact (proj1 (packing_deterministic demo_fetcher s2 demo_articles arts2
                  H1 H2)).
Defined.

(** ** Totals *)

Lemma zsum_concat_costs (s : PubMedFetcher) (sv : list saved_batch) :
  Forall (saved_ok s) sv ->
  zsum (map sb_token_count sv)
  = zsum (map (cost s) (List.concat (map sb_batch sv))).
Proof.
  induction 1 as [|b sv [_ [_ Ht _ _]] _ IH]; simpl; [reflexivity|].
  rewrite map_app, zsum_app, IH, Ht. reflexivity.
Qed.

Lemma costed_map_annotate (s : PubMedFetcher) (articles : list article) :
  Forall (costed s) (map (annotate s) articles).
Proof.
  apply Forall_forall. intros r Hr.
  apply in_map_iff in Hr as (a & <- & _). apply costed_annotate.
Qed.

Lemma map_cost_annotate (s : PubMedFetcher) (articles : list article) :
  map (cost s) (map (annotate s) articles) = map (cost s) articles.
Proof. rewrite map_map. apply map_ext. reflexivity. Qed.

Lemma map_words_annotate (s : PubMedFetcher) (articles : list article) :
  map words (map (annotate s) articles) = map words articles.
Proof. rewrite map_map. apply map_ext. reflexivity. Qed.

(** C6. Totals equation: processing adds to the total token count and to
    the total word count the sum of the counts stored in the records, so on
    a fresh object the totals are these sums; the costs of the batches add
    up to the same token total however the records were split, and
    [total_articles] is the number of records. *)
Theorem totals_equation (s : PubMedFetcher) (articles : list article) :
  sum_token_counts (map (annotate s) articles)
  = Some (zsum (map (cost s) articles))
  /\ sum_word_counts (map (annotate s) articles)
     = Some (zsum (map words articles))
  /\ total_tokens (fst (process_and_batch_articles s articles))
     = total_tokens s + zsum (map (cost s) articles)
  /\ total_words (fst (process_and_batch_articles s articles))
     = total_words s + zsum (map words articles)
  /\ zsum (map sb_token_count (snd (process_and_batch_articles s articles)))
     = zsum (map (cost s) articles)
  /\ total_articles (fst (process_and_batch_articles s articles))
     = Z.of_nat (List.length articles)
  /\ forall q y m limit dir rev tok,
       s = init q y m limit dir rev tok ->
       total_tokens (fst (process_and_batch_articles s articles))
       = zsum (map (cost s) articles)
       /\ total_words (fst (process_and_batch_articles s articles))
          = zsum (map words articles).
Proof.
  destruct (process_spec s articles) as [_ Hcat Hsv _ _ Htt Htw Hta].
  repeat split.
  - rewrite (sum_token_counts_costed s _ (costed_map_annotate s articles)).
    now rewrite map_cost_annotate.
  - rewrite (sum_word_counts_costed s _ (costed_map_annotate s articles)).
    now rewrite map_words_annotate.
  - assumption.
  - assumption.
  - rewrite (zsum_concat_costs s _ Hsv), Hcat. now rewrite map_cost_annotate.
  - assumption.
  - rewrite Htt. subst s. simpl. lia.
  - rewrite Htw. subst s. simpl. lia.
Qed.

Example demo_totals :
  let s := fst (process_and_batch_articles demo_fetcher demo_articles) in
  (total_tokens s, total_words s, total_articles s) = (18, 6, 5).
Proof. vm_compute. reflexivity. Qed.

(** ** Batch metadata *)

(** C9. Batch metadata: the token count recorded for every emitted batch,
    in the call of [_save_batch] and in its entry of [self.batches], is the
    sum of the token counts of its records; the batches are numbered
    1, 2, ... in the order they are closed, and the entries of
    [self.batches] follow the same order after those already there. *)
Theorem batch_metadata (s : PubMedFetcher) (articles : list article) :
  Forall (fun b => sum_token_counts (sb_batch b) = Some (sb_token_count b))
    (snd (process_and_batch_articles s articles))
  /\ map sb_batch_number (snd (process_and_batch_articles s articles))
     = numbers_from_1
         (List.length (snd (process_and_batch_articles s articles)))
  /\ batches (fst (process_and_batch_articles s articles))
     = batches s ++ map info_of (snd (process_and_batch_articles s articles))
  /\ map bi_batch_number
       (map info_of (snd (process_and_batch_articles s articles)))
     = numbers_from_1
         (List.length (snd (process_and_batch_articles s articles))).
Proof.
  destruct (process_spec s articles) as [_ _ Hsv Hnum Hb _ _ _].
  split; [|split; [|split]].
  - eapply Forall_impl; [|exact Hsv].
    intros b [_ [Hc Ht _ _]]. rewrite Ht.
    apply sum_token_counts_costed, Hc.
  - assumption.
  - assumption.
  - rewrite map_map. exact Hnum.
Qed.

Example demo_batches :
  batches (fst (process_and_batch_articles demo_fetcher demo_articles))
  = [ mk_batch_info 1 1 3; mk_batch_info 2 2 5; mk_batch_info 3 1 9;
      mk_batch_info 4 1 1 ].
Proof. vm_compute. reflexivity. Qed.

(** ** No empty batch *)

(** C10. No emitted batch is empty, whatever the input: every call of
    [_save_batch] gets at least one record and every entry added to
    [self.batches] counts at least one article; the empty input saves
    nothing and adds no entry. *)
Theorem no_empty_batch (s : PubMedFetcher) (articles : list article) :
  Forall (fun b => sb_batch b <> [])
    (snd (process_and_batch_articles s articles))
  /\ Forall (fun i => 1 <= bi_article_count i)
       (map info_of (snd (process_and_batch_articles s articles)))
  /\ snd (process_and_batch_articles s []) = []
  /\ batches (fst (process_and_batch_articles s [])) = batches s.
Proof.
  pose proof (p_saved _ _ _ _ (process_spec s articles)) as Hsv.
  split; [|split; [|split]].
  - eapply Forall_impl; [|exact Hsv]. intros b [Hne _]. exact Hne.
  - apply Forall_forall. intros i Hi.
    apply in_map_iff in Hi as (b & <- & Hb).
    rewrite Forall_forall in Hsv. destruct (Hsv b Hb) as [Hne _].
    simpl. destruct (sb_batch b); [congruence|]. simpl. lia.
  - reflexivity.
  - reflexivity.
Qed.

(** Records of cost zero under capacity zero share one batch. *)
Example demo_zero_cost :
  let s := init "q" 5 100 0 "./out" false (fun _ => []) in
  map boundary
    (snd (process_and_batch_articles s
            [fetched "1" "" ""; fetched "2" "" ""]))
  = [ (1, 2%nat, 0) ].
Proof. vm_compute. reflexivity. Qed.

(** ** Quality filter *)


Lemma kept_app (l l' : list pubmed_article) :
  kept (l ++ l') = kept l ++ kept l'.
Proof. unfold kept. apply flat_map_app. Qed.

Lemma fetch_records_spec (records : list pubmed_article)
    (s : PubMedFetcher) (articles : list article) :
  snd (fold_left fetch_record records (s, articles))
  = articles ++ kept records
  /\ skipped_articles (fst (fold_left fetch_record records (s, articles)))
     = skipped_articles s
       + Z.of_nat (List.length (filter rejected records))
  /\ same_but_skipped s (fst (fold_left fetch_record records (s, articles))).
Proof.
  revert s articles.
  induction records as [|r records IH]; intros s articles; simpl.
  - rewrite app_nil_r. repeat split. lia.
  - unfold fetch_record at 2 4 6. unfold rejected at 1.
    destruct (extract r) as [a| |]; simpl fst; simpl snd.
    + destruct (IH s (articles ++ [a])) as (K1 & K2 & K3).
      rewrite K1, K2, <- app_assoc. repeat split; apply K3.
    + destruct (IH (skip_one s) articles) as (H1 & H2 & H3).
      rewrite H1, H2. simpl skipped_articles.
      repeat split; try apply H3. simpl List.length. lia.
    + destruct (IH (skip_one s) articles) as (H1 & H2 & H3).
      rewrite H1, H2. simpl skipped_articles.
      repeat split; try apply H3. simpl List.length. lia.
Qed.

Lemma same_but_skipped_trans (s s' s'' : PubMedFetcher) :
  same_but_skipped s s' -> same_but_skipped s' s'' -> same_but_skipped s s''.
Proof.
  intros (A1 & A2 & A3 & A4 & A5 & A6) (B1 & B2 & B3 & B4 & B5 & B6).
  repeat split; congruence.
Qed.

Section FetchProperties.

Variable efetch : string -> option (list pubmed_article).
Variable pmid_list : list string.

Lemma fetch_chunk_delivered (st : PubMedFetcher * list article) (i : nat) :
  fetch_chunk efetch pmid_list st i
  = fold_left fetch_record (delivered efetch pmid_list i) st.
Proof.
  unfold fetch_chunk, delivered.
  destruct (efetch (join "," (slice pmid_list i))); reflexivity.
Qed.

Lemma fetch_chunks_spec (starts : list nat) (s : PubMedFetcher)
    (articles : list article) :
  snd (fold_left (fetch_chunk efetch pmid_list) starts (s, articles))
  = articles ++ kept (flat_map (delivered efetch pmid_list) starts)
  /\ skipped_articles
       (fst (fold_left (fetch_chunk efetch pmid_list) starts (s, articles)))
     = skipped_articles s
       + Z.of_nat (List.length (filter rejected (flat_map (delivered efetch pmid_list) starts)))
  /\ same_but_skipped s
       (fst (fold_left (fetch_chunk efetch pmid_list) starts (s, articles))).
Proof.
  revert s articles.
  induction starts as [|i starts IH]; intros s articles; simpl.
  - rewrite app_nil_r. repeat split. lia.
  - rewrite fetch_chunk_delivered.
    destruct (fetch_records_spec (delivered efetch pmid_list i) s articles) as (H1 & H2 & H3).
    destruct (fold_left fetch_record (delivered efetch pmid_list i) (s, articles))
      as [s1 articles1] eqn:E.
    simpl in H1, H2, H3. subst articles1.
    destruct (IH s1 (articles ++ kept (delivered efetch pmid_list i))) as (K1 & K2 & K3).
    rewrite K1, K2, H2, kept_app, filter_app, length_app, <- app_assoc.
    split; [reflexivity|]. split; [lia|].
    exact (same_but_skipped_trans _ _ _ H3 K3).
Qed.

End FetchProperties.

Lemma fetch_articles_spec (efetch : string -> option (list pubmed_article))
    (s : PubMedFetcher) (pmid_list : list string) :
  snd (fetch_articles efetch s pmid_list)
  = kept (fetched_records efetch pmid_list)
  /\ skipped_articles (fst (fetch_articles efetch s pmid_list))
     = skipped_articles s
       + Z.of_nat (List.length
                     (filter rejected (fetched_records efetch pmid_list)))
  /\ same_but_skipped s (fst (fetch_articles efetch s pmid_list)).
Proof.
  exact (fetch_chunks_spec efetch pmid_list
           (range_step (List.length pmid_list) batch_size) s []).
Qed.

Lemma rejected_iff (r : pubmed_article) :
  rejected r = negb (has_pmid_and_title r && has_abstract_field r).
Proof.
  unfold rejected, extract, has_pmid_and_title, has_abstract_field.
  destruct r as [[[[p|] [[[t|] [[[[l|x]|]]|]]|]]|]]; reflexivity.
Qed.

Lemma kept_length (records : list pubmed_article) :
  (List.length (kept records) + List.length (filter rejected records)
   = List.length records)%nat.
Proof.
  induction records as [|r records IH]; simpl; [reflexivity|].
  unfold kept in *. simpl. unfold rejected at 1.
  destruct (extract r); simpl; lia.
Qed.

Lemma annotate_same_tokenizer (s s' : PubMedFetcher) (a : article) :
  tokenizer s' = tokenizer s -> annotate s' a = annotate s a.
Proof. intros H. unfold annotate, count_tokens. now rewrite H. Qed.

(** C7, as the code has it. A fetched record is kept exactly when it has a
    PMID, a title and an abstract element with an ['AbstractText'] key (the
    text extracted may be empty); the records kept are returned in order;
    every rejected record adds exactly one to the skip counter, so kept and
    skipped together are the records fetched; the emitted batches hold the
    kept records only, and the totals grow by the counts of the kept records
    only. *)
Theorem quality_filter (efetch : string -> option (list pubmed_article))
    (s : PubMedFetcher) (pmid_list : list string) :
  let records := fetched_records efetch pmid_list in
  let s1 := fst (fetch_articles efetch s pmid_list) in
  let articles := snd (fetch_articles efetch s pmid_list) in
  articles = kept records
  /\ Forall (fun r => rejected r
                      = negb (has_pmid_and_title r && has_abstract_field r))
       records
  /\ skipped_articles s1
     = skipped_articles s
       + Z.of_nat (List.length (filter rejected records))
  /\ (List.length articles + List.length (filter rejected records)
      = List.length records)%nat
  /\ List.concat
       (map sb_batch (snd (process_and_batch_articles s1 articles)))
     = map (annotate s) (kept records)
  /\ total_tokens (fst (process_and_batch_articles s1 articles))
     = total_tokens s + zsum (map (cost s) (kept records))
  /\ total_words (fst (process_and_batch_articles s1 articles))
     = total_words s + zsum (map words (kept records)).
Proof.
  intros records s1 articles.
  destruct (fetch_articles_spec efetch s pmid_list)
    as (Hk & Hs & (_ & Htok & _ & Hw & Ht & _)).
  fold records s1 articles in Hk, Hs, Htok, Hw, Ht.
  destruct (process_spec s1 articles) as [_ Hcat _ _ _ Htt Htw _].
  split; [exact Hk|].
  split; [apply Forall_forall; intros r _; apply rejected_iff|].
  split; [exact Hs|].
  split; [rewrite Hk; apply kept_length|].
  split; [|split].
  - rewrite Hcat, Hk. apply map_ext. intros a.
    apply annotate_same_tokenizer, Htok.
  - rewrite Htt, Ht, Hk. f_equal. f_equal. apply map_ext. intros a.
    apply cost_same_tokenizer, Htok.
  - rewrite Htw, Hw, Hk. reflexivity.
Qed.

(** Two of five fetched records have no body text: the skip counter is 2
    and three records are packed. *)
Example demo_filter :
  let s1 := fst (fetch_articles demo_efetch demo_fetcher demo_pmids) in
  let articles := snd (fetch_articles demo_efetch demo_fetcher demo_pmids) in
  skipped_articles s1 = 2
  /\ map pmid articles = ["101"; "103"; "105"]
  /\ map (fun b => map pmid (sb_batch b))
       (snd (process_and_batch_articles s1 articles))
     = [["101"]; ["103"]; ["105"]].
Proof. vm_compute. repeat split. Qed.

(** C7, as stated, fails: a record whose abstract element holds no text is
    kept with an empty body, is not counted as skipped, and is packed. *)
Lemma empty_abstract_is_kept :
  snd (fetch_articles blank_efetch demo_fetcher ["201"])
  = [fetched "201" "A title" ""]
  /\ abstract (fetched "201" "A title" "") = ""
  /\ skipped_articles (fst (fetch_articles blank_efetch demo_fetcher ["201"]))
     = 0
  /\ map (fun b => map abstract (sb_batch b))
       (snd (process_and_batch_articles
               (fst (fetch_articles blank_efetch demo_fetcher ["201"]))
               (snd (fetch_articles blank_efetch demo_fetcher ["201"]))))
     = [[""]].
Proof. vm_compute. repeat split. Qed.

(** ** Summary without records *)

Lemma floordiv_defined (a b : Z) : b > 0 -> floordiv a b = Some (a / b).
Proof.
  intros H. unfold floordiv.
  destruct (b =? 0) eqn:E; [apply Z.eqb_eq in E; lia | reflexivity].
Qed.

(** The guard keeps the division away from zero: neither summary raises. *)
Lemma summary_never_raises (now : string) (s : PubMedFetcher) :
  save_summary now s <> None /\ print_summary s <> None.
Proof.
  unfold save_summary, summary_averages, print_summary, printed_average.
  destruct (total_articles s >? 0) eqn:E.
  - assert (H : total_articles s > 0) by (apply Z.gtb_lt in E; lia).
    rewrite !floordiv_defined by assumption. split; discriminate.
  - split; discriminate.
Qed.

(** C8, as the code has it. When [total_articles] is zero, [save_summary]
    and [print_summary] raise nothing and perform no division; the lines of
    the averages are left out of what they write and print. *)
Theorem zero_articles_summary (now : string) (s : PubMedFetcher) :
  total_articles s = 0 ->
  summary_averages s = Some []
  /\ printed_average s = Some []
  /\ save_summary now s = Some (summary_text now s [])
  /\ print_summary s = Some (printed_text s []).
Proof.
  intros H. unfold save_summary, summary_averages, print_summary,
    printed_average.
  rewrite H. simpl. repeat split.
Qed.

Lemma zero_articles_summary_witness :
  total_articles idle_fetcher = 0
  /\ save_summary demo_now idle_fetcher
     = Some (summary_text demo_now idle_fetcher [])
  /\ print_summary idle_fetcher = Some (printed_text idle_fetcher []).
Proof.
  assert (H : total_articles idle_fetcher = 0) by (vm_compute; reflexivity).
  split; [exact H|].
  destruct (zero_articles_summary demo_now idle_fetcher H)
    as (_ & _ & Hs & Hp).
  split; [exact Hs | exact Hp].
Defined.

(** C8, as stated, fails: with no record processed, nothing that is
    written or printed speaks of an average, as a value or as not
    applicable. *)
Lemma zero_articles_not_reported :
  total_articles idle_fetcher = 0
  /\ save_summary demo_now idle_fetcher
     = Some (summary_text demo_now idle_fetcher [])
  /\ existsb mentions_average (summary_text demo_now idle_fetcher []) = false
  /\ print_summary idle_fetcher = Some (printed_text idle_fetcher [])
  /\ existsb mentions_average (printed_text idle_fetcher []) = false.
Proof. vm_compute. repeat split. Qed.

(** With records, both summaries give the averages. *)
Example demo_averages :
  let s := fst (process_and_batch_articles demo_fetcher demo_articles) in
  summary_averages s
  = Some [ "Average words per article: 1" +++ nl;
           "Average tokens per article: 3" +++ nl +++ nl ]
  /\ printed_average s = Some [ "Avg tokens/article: 3" ].
Proof. vm_compute. repeat split. Qed.

(** ** The whole run *)

(** [run] raises nothing, whatever the source answers. *)
Lemma run_never_raises (esearch : string -> option (list string))
    (efetch : string -> option (list pubmed_article)) (now : string)
    (s : PubMedFetcher) :
  run esearch efetch now s <> None.
Proof.
  unfold run.
  destruct (nonempty (search_pubmed esearch s)); simpl; [|discriminate].
  destruct (fetch_articles efetch s (search_pubmed esearch s))
    as [s1 articles].
  destruct (nonempty articles); simpl; [|discriminate].
  destruct (process_and_batch_articles s1 articles) as [s2 sv].
  destruct (summary_never_raises now s2) as [Hs Hp].
  destruct (save_summary now s2); [|congruence].
  destruct (print_summary s2); [discriminate|congruence].
Qed.

(** A run that keeps no record ends before any batch or summary. *)
Lemma run_without_articles (esearch : string -> option (list string))
    (efetch : string -> option (list pubmed_article)) (now : string)
    (s : PubMedFetcher) :
  snd (fetch_articles efetch s (search_pubmed esearch s)) = [] ->
  exists s1, run esearch efetch now s
             = Some {| rr_self := s1; rr_saved := [];
                       rr_summary := None; rr_printed := None |}.
Proof.
  intros H. unfold run.
  destruct (nonempty (search_pubmed esearch s)); simpl; [|eauto].
  destruct (fetch_articles efetch s (search_pubmed esearch s))
    as [s1 articles].
  simpl in H. subst articles. simpl. eauto.
Qed.

(** * Further properties *)

(** ** Vocabulary *)



(** A closed batch followed by the records [next] of the batch after it:
    the first of them did not fit. *)
Definition overflows (s : PubMedFetcher) (b : saved_batch)
    (next : list article) : Prop :=
  match next with
  | r :: _ => token_limit s < sb_token_count b + cost s r
  | [] => False
  end.

(** Every batch but the last is followed by a record that did not fit. *)
Fixpoint greedy (s : PubMedFetcher) (bs : list saved_batch) : Prop :=
  match bs with
  | b :: rest =>
      match rest with
      | b' :: _ => overflows s b (sb_batch b') /\ greedy s rest
      | [] => True
      end
  | [] => True
  end.

(** The open batch of a loop state, as it would be saved. *)
Definition open_batch (ls : loop_state) : saved_batch :=
  {| sb_batch := current_batch ls; sb_batch_number := batch_number ls;
     sb_token_count := current_batch_tokens ls |}.

(** The names of the files a run writes, in order. *)
Definition written_names (sv : list saved_batch) : list string :=
  map (fun b => fst (_save_batch b)) sv.

(** The texts of the files a run writes, one after the other. *)
Definition written_text (sv : list saved_batch) : string :=
  join "" (map (fun b => snd (_save_batch b)) sv).

(** ** Chunks of identifiers *)

Lemma firstn_plus {A} (a b : nat) (l : list A) :
  firstn (a + b) l = firstn a l ++ firstn b (skipn a l).
Proof.
  revert l. induction a as [|a IH]; intros l; simpl; [reflexivity|].
  destruct l as [|x l]; simpl.
  - now rewrite firstn_nil.
  - now rewrite IH.
Qed.

Lemma chunks_prefix (l : list string) (m : nat) :
  List.concat (map (slice l) (map (fun k => (k * batch_size)%nat) (seq 0 m)))
  = firstn (m * batch_size) l.
Proof.
  induction m as [|m IH].
  - reflexivity.
  - rewrite seq_S, !map_app, concat_app, IH. simpl List.concat.
    rewrite app_nil_r. unfold slice.
    now rewrite Nat.mul_succ_l, firstn_plus.
Qed.

Lemma chunk_count (n : nat) :
  (n <= (n + batch_size - 1) / batch_size * batch_size)%nat
  /\ (forall k, k < (n + batch_size - 1) / batch_size ->
                k * batch_size < n)%nat.
Proof.
  unfold batch_size.
  pose proof (Nat.div_mod_eq (n + 50 - 1) 50) as E.
  pose proof (Nat.mod_upper_bound (n + 50 - 1) 50) as B.
  split; [lia|]. intros k Hk. nia.
Qed.

(** X1. The chunks requested by [fetch_articles] are the identifier list
    cut in order, nothing lost or repeated; every chunk has between 1 and
    50 identifiers. *)
Theorem chunks_cover_pmids (pmid_list : list string) :
  List.concat
    (map (slice pmid_list) (range_step (List.length pmid_list) batch_size))
  = pmid_list
  /\ Forall (fun i => (1 <= List.length (slice pmid_list i) <= 50)%nat)
       (range_step (List.length pmid_list) batch_size).
Proof.
  destruct (chunk_count (List.length pmid_list)) as [Hall Hlt].
  split.
  - unfold range_step. rewrite chunks_prefix.
    apply firstn_all2, Hall.
  - apply Forall_forall. intros i Hi. unfold range_step in Hi.
    apply in_map_iff in Hi as (k & <- & Hk). apply in_seq in Hk.
    specialize (Hlt k). unfold slice.
    rewrite length_firstn, length_skipn. unfold batch_size in *. lia.
Qed.

Example demo_chunks :
  map (@List.length string)
    (map (slice (repeat "1" 120)) (range_step 120 batch_size))
  = [50; 50; 20]%nat.
Proof. vm_compute. reflexivity. Qed.

(** ** Words *)

Lemma str_app_nil_r (s : string) : s +++ "" = s.
Proof. induction s as [|c s IH]; simpl; [reflexivity | now rewrite IH]. Qed.

Lemma str_app_assoc (a b c : string) : (a +++ b) +++ c = a +++ b +++ c.
Proof. induction a as [|x a IH]; simpl; [reflexivity | now rewrite IH]. Qed.


Lemma is_empty_true (s : string) : is_empty s = true <-> s = "".
Proof. destruct s; simpl; split; congruence. Qed.

Lemma join_empty_cons (x : string) (l : list string) :
  join "" (x :: l) = x +++ join "" l.
Proof.
  destruct l as [|y l]; simpl; [now rewrite str_app_nil_r | reflexivity].
Qed.








Example demo_words :
  count_words (combined_text (fetched "1" "Gene  editing" " in vivo ")) = 4.
Proof. vm_compute. reflexivity. Qed.

(** ** Counting batches *)

Lemma length_concat_nonempty {A} (ls : list (list A)) :
  Forall (fun l => l <> []) ls ->
  (List.length ls <= List.length (List.concat ls))%nat.
Proof.
  induction 1 as [|l ls Hne _ IH]; simpl; [lia|].
  rewrite length_app. destruct l; [congruence | simpl; lia].
Qed.

Lemma zsum_lengths_concat {A} (ls : list (list A)) :
  zsum (map (fun l => Z.of_nat (List.length l)) ls)
  = Z.of_nat (List.length (List.concat ls)).
Proof.
  induction ls as [|l ls IH]; simpl; [reflexivity|].
  rewrite length_app. lia.
Qed.

(** X4. Batch counts: the article counts of the entries added to
    [self.batches] add up to [total_articles]; there are at most as many
    batches as records, and none exactly when there is no record. *)
Theorem batch_counts (s : PubMedFetcher) (articles : list article) :
  zsum (map bi_article_count
          (map info_of (snd (process_and_batch_articles s articles))))
  = total_articles (fst (process_and_batch_articles s articles))
  /\ (List.length (snd (process_and_batch_articles s articles))
      <= List.length articles)%nat
  /\ (snd (process_and_batch_articles s articles) = [] <-> articles = []).
Proof.
  destruct (process_spec s articles) as [_ Hcat Hsv _ _ _ _ Hta].
  assert (Hlen : List.length
                   (List.concat
                      (map sb_batch
                         (snd (process_and_batch_articles s articles))))
                 = List.length articles)
    by (rewrite Hcat; apply length_map).
  assert (Hne : Forall (fun l : list article => l <> [])
                  (map sb_batch
                     (snd (process_and_batch_articles s articles)))).
  { apply Forall_forall. intros l Hl.
    apply in_map_iff in Hl as (b & <- & Hb).
    rewrite Forall_forall in Hsv. apply (Hsv b Hb). }
  split; [|split].
  - rewrite Hta, <- Hlen, <- zsum_lengths_concat, !map_map. reflexivity.
  - rewrite <- Hlen, <- (length_map sb_batch).
    apply length_concat_nonempty, Hne.
  - split.
    + intros E. rewrite E in Hlen. simpl in Hlen.
      destruct articles; [reflexivity | discriminate].
    + intros ->. reflexivity.
Qed.

(** ** Greedy packing *)

Lemma greedy_snoc (s : PubMedFetcher) (l : list saved_batch)
    (b b' : saved_batch) :
  greedy s (l ++ [b]) -> overflows s b (sb_batch b') ->
  greedy s (l ++ [b; b']).
Proof.
  intros H Hov. induction l as [|x [|y l] IH]; simpl in *.
  - split; [assumption | exact I].
  - destruct H as [H _]. repeat split; assumption.
  - destruct H as [H H']. split; [assumption|]. apply IH, H'.
Qed.

Lemma greedy_replace_last (s : PubMedFetcher) (l : list saved_batch)
    (b b' : saved_batch) :
  greedy s (l ++ [b]) ->
  (forall x, overflows s x (sb_batch b) -> overflows s x (sb_batch b')) ->
  greedy s (l ++ [b']).
Proof.
  intros H Hov. induction l as [|x [|y l] IH]; simpl in *.
  - exact I.
  - destruct H as [H _]. split; [apply Hov, H | exact I].
  - destruct H as [H H']. split; [assumption|]. apply IH, H'.
Qed.

Lemma greedy_adjacent (s : PubMedFetcher) (before after : list saved_batch)
    (b b' : saved_batch) :
  greedy s (before ++ b :: b' :: after) -> overflows s b (sb_batch b').
Proof.
  induction before as [|x [|y before] IH]; simpl; intros H.
  - apply H.
  - apply H.
  - apply IH, H.
Qed.

(** The loop keeps the batches greedy, the open one included. *)
Definition greedy_inv (s : PubMedFetcher) (ls : loop_state) : Prop :=
  greedy s (saved ls ++ [open_batch ls])
  /\ (current_batch ls = [] -> saved ls = []).

Lemma greedy_inv_step (s : PubMedFetcher) (done : list article)
    (ls : loop_state) (a : article) :
  loop_inv s done ls -> greedy_inv s ls -> greedy_inv s (loop_body ls a).
Proof.
  intros Hinv [Hg Hempty].
  pose proof (inv_config _ _ _ Hinv) as (Hlim & Htok & _).
  assert (Hcost : count_tokens (self ls) (combined_text a) = cost s a)
    by (unfold cost, count_tokens; now rewrite Htok).
  unfold loop_body. rewrite Hcost.
  change (token_limit (add_totals (self ls) (count_words (combined_text a))
                         (cost s a)))
    with (token_limit (self ls)).
  rewrite Hlim.
  destruct ((current_batch_tokens ls + cost s a >? token_limit s)
            && nonempty (current_batch ls)) eqn:E.
  - apply andb_prop in E as [Hgt _]. apply Z.gtb_lt in Hgt.
    split; simpl.
    + rewrite <- app_assoc. simpl. apply greedy_snoc; [exact Hg|].
      simpl. rewrite cost_annotate. exact Hgt.
    + discriminate.
  - split; simpl.
    + destruct (current_batch ls) as [|r rest] eqn:Ecur.
      * rewrite (Hempty eq_refl). exact I.
      * eapply greedy_replace_last; [exact Hg|].
        intros x. unfold open_batch. rewrite Ecur. simpl. tauto.
    + intros Hnil. destruct (current_batch ls); discriminate.
Qed.

Lemma greedy_inv_fold (s : PubMedFetcher) (articles done : list article)
    (ls : loop_state) :
  loop_inv s done ls -> greedy_inv s ls ->
  greedy_inv s (fold_left loop_body articles ls).
Proof.
  revert done ls.
  induction articles as [|a articles IH]; intros done ls Hinv Hg; simpl.
  - exact Hg.
  - apply (IH (done ++ [a])).
    + apply loop_inv_step, Hinv.
    + eapply greedy_inv_step; eassumption.
Qed.

Lemma packing_is_greedy_aux (s : PubMedFetcher) (articles : list article) :
  greedy s (snd (process_and_batch_articles s articles)).
Proof.
  assert (H0 : greedy_inv s (loop_start s)) by (split; [exact I | reflexivity]).
  destruct (greedy_inv_fold s articles [] _ (loop_inv_start s) H0)
    as [Hg Hempty].
  unfold process_and_batch_articles, loop_finish.
  destruct (nonempty (current_batch (fold_left loop_body articles
                                       (loop_start s)))) eqn:E; simpl.
  - exact Hg.
  - apply nonempty_false in E. rewrite (Hempty E). exact I.
Qed.

(** X5. The packing is greedy: every emitted batch but the last is closed
    only because the first record of the next batch did not fit, its cost
    plus that record's token count exceeding [token_limit]. *)
Theorem packing_is_greedy (s : PubMedFetcher) (articles : list article)
    (before after : list saved_batch) (b b' : saved_batch) :
  snd (process_and_batch_articles s articles)
  = before ++ b :: b' :: after ->
  exists r rest,
    sb_batch b' = r :: rest
    /\ token_limit s < sb_token_count b + cost s r.
Proof.
  intros E. pose proof (packing_is_greedy_aux s articles) as Hg.
  rewrite E in Hg. apply greedy_adjacent in Hg.
  unfold overflows in Hg.
  destruct (sb_batch b') as [|r rest]; [contradiction|].
  exists r, rest. split; [reflexivity | exact Hg].
Qed.

Lemma packing_is_greedy_witness :
  exists b b' after,
    snd (process_and_batch_articles demo_fetcher demo_articles)
    = [] ++ b :: b' :: after
    /\ exists r rest,
         sb_batch b' = r :: rest
         /\ token_limit demo_fetcher < sb_token_count b + cost demo_fetcher r.
Proof.
  eexists _, _, _.
  assert (E : snd (process_and_batch_articles demo_fetcher demo_articles)
              = [] ++ mk_saved_batch
                        [annotate demo_fetcher (fetched "101" "a" "b")] 1 3
                   :: mk_saved_batch
                        [annotate demo_fetcher (fetched "102" "ab" "c");
                         annotate demo_fetcher (fetched "103" "" "")] 2 5
                   :: [ mk_saved_batch
                          [annotate demo_fetcher
                             (fetched "104" "abcdefg" "h")] 3 9;
                        mk_saved_batch
                          [annotate demo_fetcher (fetched "105" "" "")] 4 1 ])
    by (vm_compute; reflexivity).
  split; [exact E|].
  exact (packing_is_greedy demo_fetcher demo_articles [] _ _ _ E).
Defined.

(** X6. Records that fit together make one batch: when the token counts
    of a non-empty input add up to at most [token_limit], exactly one batch
    is saved, numbered 1, holding every record in order at the total cost. *)
Theorem all_fit_one_batch (s : PubMedFetcher) (articles : list article) :
  articles <> [] ->
  zsum (map (cost s) articles) <= token_limit s ->
  snd (process_and_batch_articles s articles)
  = [ {| sb_batch := map (annotate s) articles;
         sb_batch_number := 1;
         sb_token_count := zsum (map (cost s) articles) |} ].
Proof.
  intros Hne Hfit.
  destruct (process_spec s articles) as [_ Hcat Hsv Hnum _ _ _ _].
  pose proof (packing_is_greedy_aux s articles) as Hg.
  destruct (snd (process_and_batch_articles s articles))
    as [|b [|b' rest]] eqn:E.
  - simpl in Hcat. destruct articles; [congruence | discriminate].
  - simpl in Hcat, Hnum. rewrite app_nil_r in Hcat.
    inversion Hsv as [|? ? [_ [_ Ht _ _]] _]; subst.
    injection Hnum as Hn.
    destruct b as [records number tokens]. simpl in *. subst.
    now rewrite map_cost_annotate.
  - exfalso. destruct Hg as [Hov _].
    inversion Hsv as [|? ? [_ [_ Ht _ _]] Hsv']; subst.
    inversion Hsv' as [|? ? [Hne' _] _]; subst.
    destruct (sb_batch b') as [|r t] eqn:Eb'; [congruence|].
    simpl in Hov.
    assert (Hsum : zsum (map (cost s)
                     (List.concat (map sb_batch (b :: b' :: rest))))
                   = zsum (map (cost s) articles))
      by (rewrite Hcat; now rewrite map_cost_annotate).
    simpl in Hsum. rewrite Eb' in Hsum.
    repeat first [ rewrite map_app in Hsum | rewrite zsum_app in Hsum
                 | progress simpl in Hsum ].
    pose proof (zsum_cost_nonneg s t).
    pose proof (zsum_cost_nonneg s (List.concat (map sb_batch rest))).
    lia.
Qed.

Lemma all_fit_one_batch_witness :
  [fetched "101" "a" "b"; fetched "103" "" ""] <> []
  /\ zsum (map (cost demo_fetcher)
             [fetched "101" "a" "b"; fetched "103" "" ""])
     <= token_limit demo_fetcher
  /\ map boundary
       (snd (process_and_batch_articles demo_fetcher
               [fetched "101" "a" "b"; fetched "103" "" ""]))
     = [ (1, 2%nat, 4) ].
Proof.
  assert (H1 : [fetched "101" "a" "b"; fetched "103" "" ""] <> [])
    by discriminate.
  assert (H2 : zsum (map (cost demo_fetcher)
                       [fetched "101" "a" "b"; fetched "103" "" ""])
               <= token_limit demo_fetcher)
    by (vm_compute; discriminate).
  split; [exact H1|]. split; [exact H2|].
  rewrite (all_fit_one_batch demo_fetcher _ H1 H2). reflexivity.
Defined.

(** ** Batch files *)










Example demo_file_names :
  written_names (snd (process_and_batch_articles demo_fetcher demo_articles))
  = [ "pubmed_batch_1.txt"; "pubmed_batch_2.txt"; "pubmed_batch_3.txt";
      "pubmed_batch_4.txt" ].
Proof. vm_compute. reflexivity. Qed.

(** The text [_save_batch] writes for one record. *)
Definition record_text (a : article) : string :=
  "PMID: " +++ pmid a +++ nl +++ nl +++
  "TITLE: " +++ title a +++ nl +++ nl +++
  "ABSTRACT:" +++ nl +++ abstract a +++ nl +++ nl +++
  str_repeat "-" 40 +++ nl +++ nl.

Lemma batch_file_text_cons (a : article) (l : list article) :
  batch_file_text (a :: l) = record_text a +++ batch_file_text l.
Proof.
  unfold record_text. cbn [batch_file_text].
  repeat rewrite str_app_assoc. reflexivity.
Qed.

Lemma batch_file_text_app (l l' : list article) :
  batch_file_text (l ++ l') = batch_file_text l +++ batch_file_text l'.
Proof.
  induction l as [|a l IH].
  - reflexivity.
  - change ((a :: l) ++ l') with (a :: l ++ l').
    now rewrite !batch_file_text_cons, IH, str_app_assoc.
Qed.

Lemma batch_file_text_annotate (s : PubMedFetcher) (l : list article) :
  batch_file_text (map (annotate s) l) = batch_file_text l.
Proof.
  induction l as [|a l IH]; [reflexivity|].
  change (map (annotate s) (a :: l))
    with (annotate s a :: map (annotate s) l).
  now rewrite !batch_file_text_cons, IH.
Qed.

Lemma written_text_concat (sv : list saved_batch) :
  written_text sv = batch_file_text (List.concat (map sb_batch sv)).
Proof.
  unfold written_text. induction sv as [|b sv IH]; [reflexivity|].
  change (map (fun b0 => snd (_save_batch b0)) (b :: sv))
    with (batch_file_text (sb_batch b)
          :: map (fun b0 => snd (_save_batch b0)) sv).
  rewrite join_empty_cons, IH. simpl List.concat.
  now rewrite batch_file_text_app.
Qed.

(** X8. Batch files read in order: the texts of the files a run writes,
    one after the other, are the text [_save_batch] would write for the
    whole input in its order; every record is written once, with the PMID,
    title and abstract it came with. *)
Theorem batch_files_hold_input (s : PubMedFetcher)
    (articles : list article) :
  written_text (snd (process_and_batch_articles s articles))
  = batch_file_text articles.
Proof.
  rewrite written_text_concat,
    (p_concat _ _ _ _ (process_spec s articles)).
  apply batch_file_text_annotate.
Qed.

(** ** The whole run, by what the source answers *)







(** ** Using the object twice *)

Lemma boundaries_agree (s1 s2 : PubMedFetcher) (arts1 arts2 : list article) :
  token_limit s1 = token_limit s2 ->
  map (cost s1) arts1 = map (cost s2) arts2 ->
  map boundary (snd (process_and_batch_articles s1 arts1))
  = map boundary (snd (process_and_batch_articles s2 arts2)).
Proof.
  intros Hlim Hmap.
  assert (H0 : agree s1 s2 (loop_start s1) (loop_start s2))
    by (constructor; reflexivity).
  pose proof (agree_fold s1 s2 arts1 arts2 Hlim Hmap _ _ H0) as H.
  unfold process_and_batch_articles, loop_finish.
  rewrite (nonempty_length _ _ (ag_open _ _ _ _ H)).
  destruct (nonempty (current_batch (fold_left loop_body arts2
                                       (loop_start s2)))); simpl.
  - rewrite !map_app, (ag_saved _ _ _ _ H). simpl.
    unfold boundary at 2 4. simpl.
    now rewrite (ag_open _ _ _ _ H), (ag_tokens _ _ _ _ H),
      (ag_number _ _ _ _ H).
  - apply (ag_saved _ _ _ _ H).
Qed.

Lemma app_inv_same_length {A} (a b x y : list A) :
  List.length a = List.length b -> a ++ x = b ++ y -> a = b /\ x = y.
Proof.
  revert b. induction a as [|u a IH]; intros [|v b] Hlen H;
    simpl in *; try discriminate.
  - split; [reflexivity | assumption].
  - injection H as -> H.
    assert (Hlen' : List.length a = List.length b) by lia.
    destruct (IH b Hlen' H) as [-> ->]. split; reflexivity.
Qed.

(** Batches with the same boundaries over the same records are the same. *)
Lemma batches_equal (l1 l2 : list saved_batch) :
  map boundary l1 = map boundary l2 ->
  List.concat (map sb_batch l1) = List.concat (map sb_batch l2) ->
  l1 = l2.
Proof.
  revert l2. induction l1 as [|b1 l1 IH]; intros [|b2 l2] Hb Hc;
    simpl in *; try discriminate; [reflexivity|].
  unfold boundary at 1 3 in Hb. injection Hb as Hn Hl Ht Hb.
  destruct (app_inv_same_length _ _ _ _ Hl Hc) as [Hr Hrest].
  f_equal; [|apply IH; assumption].
  destruct b1, b2. simpl in *. congruence.
Qed.

Lemma annotate_again (s s' : PubMedFetcher) (articles : list article) :
  tokenizer s' = tokenizer s ->
  map (annotate s') (map (annotate s) articles) = map (annotate s) articles.
Proof.
  intros H. rewrite map_map. apply map_ext. intros a.
  unfold annotate, count_tokens. simpl. now rewrite H.
Qed.

(** X11. A second call on the same object and records saves the same
    batches again (same numbers, so the same files), but the statistics
    pile up: [self.batches] gets the entries a second time and the totals
    of words and tokens grow again, while [total_articles] is set anew to
    the number of records. *)
Theorem second_call_accumulates (s : PubMedFetcher)
    (articles : list article) :
  let s1 := fst (process_and_batch_articles s articles) in
  let sv1 := snd (process_and_batch_articles s articles) in
  let again :=
    process_and_batch_articles s1 (map (annotate s) articles) in
  snd again = sv1
  /\ batches (fst again) = batches s ++ map info_of sv1 ++ map info_of sv1
  /\ total_tokens (fst again)
     = total_tokens s + 2 * zsum (map (cost s) articles)
  /\ total_words (fst again)
     = total_words s + 2 * zsum (map words articles)
  /\ total_articles (fst again) = Z.of_nat (List.length articles).
Proof.
  intros s1 sv1 again.
  destruct (process_spec s articles)
    as [(Hlim & Htok & _) Hcat _ _ Hb Htt Htw _].
  fold s1 sv1 in Hlim, Htok, Hcat, Hb, Htt, Htw.
  destruct (process_spec s1 (map (annotate s) articles))
    as [_ Hcat2 _ _ Hb2 Htt2 Htw2 Hta2].
  fold again in Hcat2, Hb2, Htt2, Htw2, Hta2.
  assert (Hcosts : map (cost s1) (map (annotate s) articles)
                   = map (cost s) articles).
  { rewrite map_map. apply map_ext. intros a.
    rewrite cost_annotate. apply cost_same_tokenizer, Htok. }
  assert (Hsv : snd again = sv1).
  { apply batches_equal.
    - apply boundaries_agree; [assumption|].
      rewrite Hcosts. reflexivity.
    - rewrite Hcat2, Hcat. apply annotate_again, Htok. }
  split; [exact Hsv|].
  split; [rewrite Hb2, Hb, Hsv, <- app_assoc; reflexivity|].
  split; [rewrite Htt2, Htt, Hcosts; lia|].
  split; [rewrite Htw2, Htw, map_words_annotate; lia|].
  rewrite Hta2. now rewrite length_map.
Qed.

Example demo_second_call :
  let s1 := fst (process_and_batch_articles demo_fetcher demo_articles) in
  let s2 := fst (process_and_batch_articles s1
                   (map (annotate demo_fetcher) demo_articles)) in
  (total_tokens s2, total_articles s2, List.length (batches s2))
  = (36, 5, 8%nat)
  /\ printed_average s2 = Some [ "Avg tokens/article: 7" ].
Proof. vm_compute. split; reflexivity. Qed.
